(** * YCbCr to RGB conversion with chroma upsampling (try334.py)

    The script drives the pyvips image library: two subsampled chroma
    planes are resized with the linear kernel, joined to the luma plane,
    level-shifted by [16, 128, 128] and recombined with the [ycc2rgb]
    matrix.  The script is embedded over an interface [Vips] that lists the
    library calls it makes.  The library itself is not part of the source
    tree; its calls are modelled further down (instance [SpecVips]) on
    planes of rational samples, which stand for floating-point bands in
    exact arithmetic: the decimal literals of the script are read as the
    fractions they denote, and the rounding an integer band format adds is
    not modelled. *)

From Stdlib Require Import String ZArith QArith Qround Qabs List Lia Lqa Bool.
Import ListNotations.

Open Scope Q_scope.

(** ** Errors and the error monad *)

(** [InvalidDimension] and [DimensionMismatch] are the two errors of the
    specification's taxonomy; [AttributeError] is Python's, raised when a
    method is looked up on an object that does not have it. *)
Inductive error : Type :=
  | InvalidDimension
  | DimensionMismatch
  | AttributeError.

Inductive result (A : Type) : Type :=
  | Ok (a : A)
  | Err (e : error).

Arguments Ok {A} a.
Arguments Err {A} e.

Definition bind {A B : Type} (r : result A) (k : A -> result B) : result B :=
  match r with
  | Ok a => k a
  | Err e => Err e
  end.

Definition fmap {A B : Type} (f : A -> B) (r : result A) : result B :=
  bind r (fun a => Ok (f a)).

Notation "x <- r ;; k" := (bind r (fun x => k))
  (at level 61, r at next level, right associativity).

Fixpoint mapM {A B : Type} (f : A -> result B) (l : list A) : result (list B) :=
  match l with
  | [] => Ok []
  | a :: l' => b <- f a ;; bs <- mapM f l' ;; Ok (b :: bs)
  end.

(** ** The library interface used by the script *)

(** [kernel="linear"] is the only kernel the script asks for. *)
Inductive kernel : Type := linear.

(** Values of the [interpretation=] keyword: a single-band image is
    [b_w], a joined image is [multiband], the script tags its result
    [srgb]. *)
Inductive interpretation : Type := multiband | b_w | srgb.

(** One field per pyvips call of the script; [sub_const] is the overloaded
    [image - [c0, c1, c2]]. *)
Class Vips (image binary : Type) : Type := {
  black : Z -> Z -> result image;
  copy_memory : image -> result image;
  resize : image -> Z -> kernel -> result image;
  bandjoin : image -> list image -> result image;
  sub_const : image -> list Q -> result image;
  recomb : image -> list (list Q) -> result image;
  copy : image -> interpretation -> result image;
  write_to_binary : image -> result binary
}.

(** ** The script *)

Definition shift : Z := 1.
Definition subsample : Z := Z.shiftl 1 shift.

Definition ycc2rgb : list (list Q) :=
  [ [1.0;  0.0;       1.402   ];
    [1.0; -0.344136; -0.714136];
    [1.0;  1.772;     0.0     ] ].

(** The function objects handed to [bench]. *)
Inductive callee : Type := Try2 | Try3.

Section Script.

Context {image binary : Type} `{V : Vips image binary}.

Definition try2 (Y Cb Cr : image) : result image :=
  Cb <- resize Cb subsample linear ;;
  Cr <- resize Cr subsample linear ;;
  J <- bandjoin Y [Cb; Cr] ;;
  YCbCr <- sub_const J [16; 128; 128] ;;
  M <- recomb YCbCr ycc2rgb ;;
  copy M srgb.

Definition try3 (Y Cb Cr : image) : result binary :=
  Cb <- resize Cb subsample linear ;;
  Cr <- resize Cr subsample linear ;;
  J <- bandjoin Y [Cb; Cr] ;;
  YCbCr <- sub_const J [16; 128; 128] ;;
  M <- recomb YCbCr ycc2rgb ;;
  Rgb <- copy M srgb ;;
  write_to_binary Rgb.

(** The last two lines of [try2], read as the colour transform stage:
    join, level shift, recombination, tag. *)
Definition transform (Y Cb Cr : image) (matrix : list (list Q))
    (offs : list Q) : result image :=
  J <- bandjoin Y [Cb; Cr] ;;
  YCbCr <- sub_const J offs ;;
  M <- recomb YCbCr matrix ;;
  copy M srgb.

(** What a call made by [bench] returns: an image or a byte string. *)
Inductive value : Type :=
  | VImage (i : image)
  | VBinary (b : binary).

Definition call (fn : callee) (Y Cb Cr : image) : result value :=
  match fn with
  | Try2 => fmap VImage (try2 Y Cb Cr)
  | Try3 => fmap VBinary (try3 Y Cb Cr)
  end.

(** [fn(Y, Cb, Cr).copy_memory()]: only an image has the method. *)
Definition copy_memory_value (v : value) : result value :=
  match v with
  | VImage i => fmap VImage (copy_memory i)
  | VBinary _ => Err AttributeError
  end.

(** [bench] returns the label it prints and the value it computed; the
    elapsed time is not modelled. *)
Definition bench (msg : string) (fn : callee) (Y Cb Cr : image)
    : result (string * value) :=
  v <- call fn Y Cb Cr ;;
  r <- copy_memory_value v ;;
  Ok (msg, r).

(** The body of the script after argument parsing; the result lists
    what the two [bench] statements reported, in order. *)
Definition main (width height : Z) : result (list (string * value)) :=
  Y0 <- black width height ;;
  Y <- copy_memory Y0 ;;
  Cb0 <- black (Z.shiftr width shift) (Z.shiftr height shift) ;;
  Cb <- copy_memory Cb0 ;;
  Cr0 <- black (Z.shiftr width shift) (Z.shiftr height shift) ;;
  Cr <- copy_memory Cr0 ;;
  r1 <- bench "linear" Try2 Y Cb Cr ;;
  r2 <- bench "plus write_to_binary" Try2 Y Cb Cr ;;
  Ok [r1; r2].

End Script.

Arguments value : clear implicits.

(** ** Planes and multi-band images *)

(** A plane is a dense grid of samples, stored row by row, with its
    width and height. *)
Record Plane : Type := mkPlane {
  width : nat;
  height : nat;
  samples : list (list Q)
}.

Definition wf_plane (P : Plane) : Prop :=
  length (samples P) = height P /\
  Forall (fun row => length row = width P) (samples P).

Definition sample (P : Plane) (x y : nat) : Q :=
  nth x (nth y (samples P) []) 0.

(** The plane of the given size whose sample at [(x, y)] is [f x y]. *)
Definition tabulate (w h : nat) (f : nat -> nat -> Q) : Plane :=
  mkPlane w h (map (fun y => map (fun x => f x y) (seq 0 w)) (seq 0 h)).

(** Equality of planes up to the representation of each rational. *)
Definition plane_eq (P P' : Plane) : Prop :=
  width P = width P' /\ height P = height P' /\
  forall x y, (x < width P)%nat -> (y < height P)%nat ->
    sample P x y == sample P' x y.

Record MultiBandImage : Type := mkImage {
  bands : list Plane;
  tag : interpretation
}.

Definition band (I : MultiBandImage) (k : nat) : Plane :=
  nth k (bands I) (mkPlane 0 0 []).

Definition image_width (I : MultiBandImage) : nat := width (band I 0).
Definition image_height (I : MultiBandImage) : nat := height (band I 0).

(** A plane seen as a one-band image. *)
Definition gray (P : Plane) : MultiBandImage := mkImage [P] b_w.

(** ** Chroma upsampler *)

(** pyvips' [resize] is not in the source tree.  When it enlarges by
    [factor], the library places output sample [o] at input coordinate
    [o / factor - 0.5]. *)
Definition input_coord (factor : Z) (o : nat) : Q :=
  inject_Z (Z.of_nat o) / inject_Z factor - 0.5.

(** Modelled from the spec: edge policy of section 4.1, an index outside
    [0, n-1] is moved to the nearest valid one. *)
Definition clamp (n : nat) (i : Z) : nat :=
  Z.to_nat (Z.max 0 (Z.min (Z.of_nat n - 1) i)).

Definition edge_sample (P : Plane) (ix iy : Z) : Q :=
  sample P (clamp (width P) ix) (clamp (height P) iy).

(** Modelled from the spec: bilinear interpolation over the four input
    samples around the input coordinate of output sample [(x, y)]. *)
Definition bilinear (P : Plane) (factor : Z) (x y : nat) : Q :=
  let u := input_coord factor x in
  let v := input_coord factor y in
  let ix := Qfloor u in
  let iy := Qfloor v in
  let fx := u - inject_Z ix in
  let fy := v - inject_Z iy in
  (1 - fy) * ((1 - fx) * edge_sample P ix iy
              + fx * edge_sample P (ix + 1) iy)
  + fy * ((1 - fx) * edge_sample P ix (iy + 1)
          + fx * edge_sample P (ix + 1) (iy + 1)).

(** [upsample(plane, factor)] stands for pyvips'
    [resize(factor, kernel="linear")] on one band.  The size law and the
    error for a factor that is not positive follow section 4.1 of the
    spec; the library interpolates only when it enlarges, and at factor 1
    hands the samples on as they are. *)
Definition upsample (P : Plane) (factor : Z) : result Plane :=
  if (factor <=? 0)%Z then Err InvalidDimension
  else if (factor =? 1)%Z then
    Ok (tabulate (width P) (height P) (sample P))
  else
    Ok (tabulate (width P * Z.to_nat factor) (height P * Z.to_nat factor)
          (bilinear P factor)).

(** The words of section 4.1 of the spec, kept apart to be compared with
    [input_coord] and [bilinear]: input coordinate
    [(o + 0.5) / factor - 0.5]. *)
Definition center_aligned_coord (factor : Z) (o : nat) : Q :=
  (inject_Z (Z.of_nat o) + 0.5) / inject_Z factor - 0.5.

Definition center_aligned_bilinear (P : Plane) (factor : Z) (x y : nat) : Q :=
  let u := center_aligned_coord factor x in
  let v := center_aligned_coord factor y in
  let ix := Qfloor u in
  let iy := Qfloor v in
  let fx := u - inject_Z ix in
  let fy := v - inject_Z iy in
  (1 - fy) * ((1 - fx) * edge_sample P ix iy
              + fx * edge_sample P (ix + 1) iy)
  + fy * ((1 - fx) * edge_sample P ix (iy + 1)
          + fx * edge_sample P (ix + 1) (iy + 1)).

(** ** Colour transform engine *)

Definition same_size (P P' : Plane) : bool :=
  ((width P =? width P') && (height P =? height P'))%nat.

(** A plane enlarged to [w] by [h] with zero samples on the right and at
    the bottom; a plane of that size already is left as it is. *)
Definition extend (w h : nat) (P : Plane) : Plane :=
  if ((width P =? w) && (height P =? h))%nat then P
  else tabulate w h
         (fun x y =>
            if ((x <? width P) && (y <? height P))%nat then sample P x y
            else 0).

(** pyvips' [bandjoin] is not in the source tree.  The bands of the
    images are put side by side in the order given (step 1 of section 4.2
    of the spec); the library does not fail on images of different sizes
    but enlarges the smaller ones to the largest width and height with
    zero samples. *)
Definition join_bands (I : MultiBandImage) (others : list MultiBandImage)
    : result MultiBandImage :=
  let all := bands I ++ concat (map bands others) in
  let w := fold_right Nat.max 0%nat (map width all) in
  let h := fold_right Nat.max 0%nat (map height all) in
  Ok (mkImage (map (extend w h) all) multiband).

(** Modelled from the spec: step 2 of section 4.2, [band[k] -= offsets[k]];
    stands for pyvips' [image - [o0, o1, o2]]. *)
Definition level_shift (I : MultiBandImage) (offs : list Q)
    : result MultiBandImage :=
  Ok (mkImage
        (map (fun k =>
                tabulate (width (band I k)) (height (band I k))
                  (fun x y => sample (band I k) x y - nth k offs 0))
             (seq 0 (length (bands I))))
        (tag I)).

Definition pixel (I : MultiBandImage) (x y : nat) : list Q :=
  map (fun P => sample P x y) (bands I).

Definition dot (row px : list Q) : Q :=
  fold_right Qplus 0 (map (fun '(m, s) => m * s) (combine row px)).

(** Modelled from the spec: step 3 of section 4.2,
    [output[i] = sum_j matrix[i][j] * shifted_band[j]] at every pixel, one
    output band per matrix row; stands for pyvips' [recomb]. *)
Definition recombine (I : MultiBandImage) (matrix : list (list Q))
    : result MultiBandImage :=
  Ok (mkImage
        (map (fun row =>
                tabulate (image_width I) (image_height I)
                  (fun x y => dot row (pixel I x y)))
             matrix)
        (tag I)).

(** Modelled from the spec: step 4 of section 4.2, the tag is replaced and
    no sample changes; stands for pyvips' [copy(interpretation=...)]. *)
Definition retag (I : MultiBandImage) (t : interpretation)
    : result MultiBandImage :=
  Ok (mkImage (bands I) t).

(** pyvips' [resize] upsamples every band. *)
Definition resize_image (I : MultiBandImage) (factor : Z) (k : kernel)
    : result MultiBandImage :=
  match k with
  | linear =>
      bs <- mapM (fun P => upsample P factor) (bands I) ;;
      Ok (mkImage bs (tag I))
  end.

(** Modelled from the spec: pyvips' [Image.black] is not in the source
    tree; a one-band plane of zeros, [InvalidDimension] (section 7) when a
    side is not positive. *)
Definition black_image (w h : Z) : result MultiBandImage :=
  if ((w <=? 0) || (h <=? 0))%Z then Err InvalidDimension
  else Ok (gray (tabulate (Z.to_nat w) (Z.to_nat h) (fun _ _ => 0))).

(** A pyvips image has no method [write_to_binary]: looking the name up
    on the image raises AttributeError, whatever the image is. *)
Definition no_write_to_binary (I : MultiBandImage) : result string :=
  Err AttributeError.

#[export] Instance SpecVips : Vips MultiBandImage string := {
  black := black_image;
  copy_memory := fun I => Ok I;
  resize := resize_image;
  bandjoin := join_bands;
  sub_const := level_shift;
  recomb := recombine;
  copy := retag;
  write_to_binary := no_write_to_binary
}.

(** A plane of one value. *)
Definition solid (w h : nat) (c : Q) : Plane := tabulate w h (fun _ _ => c).

(** The three planes share one width and one height. *)
Definition same_dimensions (Y Cb Cr : Plane) : Prop :=
  width Cb = width Y /\ height Cb = height Y /\
  width Cr = width Y /\ height Cr = height Y.

(** The image joined from three planes, after the level shift. *)
Definition shifted (Y Cb Cr : Plane) (offs : list Q) : MultiBandImage :=
  mkImage
    (map (fun k =>
            tabulate (width (nth k [Y; Cb; Cr] (mkPlane 0 0 [])))
                     (height (nth k [Y; Cb; Cr] (mkPlane 0 0 [])))
              (fun x y =>
                 sample (nth k [Y; Cb; Cr] (mkPlane 0 0 [])) x y
                 - nth k offs 0))
         [0; 1; 2]%nat)
    multiband.

(** Luma of twice the chroma size in both directions. *)
Definition chroma_half (Y Cb Cr : Plane) : Prop :=
  width Y = (width Cb * 2)%nat /\ height Y = (height Cb * 2)%nat /\
  width Cr = width Cb /\ height Cr = height Cb.

(** The side of the joined image: the largest of the three. *)
Definition largest (a b c : nat) : nat := Nat.max a (Nat.max b c).

(** * Properties *)

(** ** Grids *)

Lemma sample_tabulate (w h : nat) (f : nat -> nat -> Q) (x y : nat) :
  (x < w)%nat -> (y < h)%nat -> sample (tabulate w h f) x y = f x y.
Proof.
  intros Hx Hy. unfold sample, tabulate. cbn [samples].
  rewrite (nth_indep _ [] (map (fun x0 => f x0 0%nat) (seq 0 w)))
    by (rewrite length_map, length_seq; exact Hy).
  rewrite (map_nth (fun y0 => map (fun x0 => f x0 y0) (seq 0 w))
             (seq 0 h) 0%nat y).
  rewrite seq_nth by exact Hy. cbn [Nat.add].
  rewrite (nth_indep _ 0 (f 0%nat y))
    by (rewrite length_map, length_seq; exact Hx).
  rewrite (map_nth (fun x0 => f x0 y) (seq 0 w) 0%nat x).
  rewrite seq_nth by exact Hx. reflexivity.
Qed.

Lemma wf_tabulate (w h : nat) (f : nat -> nat -> Q) :
  wf_plane (tabulate w h f).
Proof.
  split; cbn.
  - now rewrite length_map, length_seq.
  - apply Forall_forall. intros row Hin.
    apply in_map_iff in Hin. destruct Hin as [y [<- _]].
    now rewrite length_map, length_seq.
Qed.

Lemma clamp_inside (n x : nat) : (x < n)%nat -> clamp n (Z.of_nat x) = x.
Proof. intro Hx. unfold clamp. lia. Qed.

Lemma clamp_below (n : nat) (i : Z) : (i <= 0)%Z -> clamp n i = 0%nat.
Proof. intro Hi. unfold clamp. lia. Qed.

Lemma clamp_above (n : nat) (i : Z) :
  (Z.of_nat n - 1 <= i)%Z -> clamp n i = (n - 1)%nat.
Proof. intro Hi. unfold clamp. lia. Qed.

(** ** Upsampler *)

Lemma upsample_enlarge (P : Plane) (F : Z) :
  (1 < F)%Z ->
  upsample P F =
  Ok (tabulate (width P * Z.to_nat F) (height P * Z.to_nat F) (bilinear P F)).
Proof.
  intro HF. unfold upsample.
  destruct (F <=? 0)%Z eqn:E0; [apply Z.leb_le in E0; lia |].
  destruct (F =? 1)%Z eqn:E1; [apply Z.eqb_eq in E1; lia | reflexivity].
Qed.

Lemma upsample_one (P : Plane) :
  upsample P 1 = Ok (tabulate (width P) (height P) (sample P)).
Proof. reflexivity. Qed.

Lemma upsample_invalid (P : Plane) (F : Z) :
  (F <= 0)%Z -> upsample P F = Err InvalidDimension.
Proof.
  intro HF. unfold upsample.
  destruct (F <=? 0)%Z eqn:E; [reflexivity | apply Z.leb_gt in E; lia].
Qed.

(** Upsampling a plane of one value gives that value everywhere. *)
Lemma bilinear_solid (P : Plane) (F : Z) (c : Q) (x y : nat) :
  (forall i j, edge_sample P i j == c) ->
  bilinear P F x y == c.
Proof.
  intro Hc. unfold bilinear. cbv zeta.
  rewrite !Hc. ring.
Qed.

Lemma bilinear_const (P : Plane) (F : Z) (c : Q) (x y : nat) :
  (0 < width P)%nat -> (0 < height P)%nat ->
  (forall i j, (i < width P)%nat -> (j < height P)%nat ->
     sample P i j == c) ->
  bilinear P F x y == c.
Proof.
  intros Hw Hh Hc. apply bilinear_solid. intros i j.
  unfold edge_sample. apply Hc; unfold clamp; lia.
Qed.

(** C4: for every plane of width W and height H and every factor F > 0,
    upsample succeeds and returns a plane of width W*F and height H*F whose
    grid has exactly that many rows and columns. *)
Theorem upsample_dimensions (P : Plane) (F : Z) :
  (0 < F)%Z ->
  exists P',
    upsample P F = Ok P' /\
    Z.of_nat (width P') = (Z.of_nat (width P) * F)%Z /\
    Z.of_nat (height P') = (Z.of_nat (height P) * F)%Z /\
    wf_plane P'.
Proof.
  intro HF.
  destruct (Z.eq_dec F 1) as [-> | Hne].
  - eexists. split; [apply upsample_one |].
    cbn [width height tabulate].
    repeat split; try lia.
    + cbn. now rewrite length_map, length_seq.
    + apply (wf_tabulate _ _ (sample P)).
  - eexists. split; [apply upsample_enlarge; lia |].
    cbn [width height tabulate].
    repeat split; try lia.
    + cbn. now rewrite length_map, length_seq.
    + apply (wf_tabulate _ _ (bilinear P F)).
Qed.

Lemma upsample_dimensions_witness :
  exists P',
    upsample (mkPlane 2 1 [[0; 4]]) 2 = Ok P' /\
    Z.of_nat (width P') = (Z.of_nat 2 * 2)%Z /\
    Z.of_nat (height P') = (Z.of_nat 1 * 2)%Z /\
    wf_plane P'.
Proof. apply (upsample_dimensions (mkPlane 2 1 [[0; 4]]) 2). lia. Defined.

(** C5: upsampling by factor 1 returns a plane of the same size whose
    every sample equals the corresponding sample of the input. *)
Theorem upsample_factor_one_identity (P : Plane) :
  exists P', upsample P 1 = Ok P' /\ plane_eq P' P.
Proof.
  eexists. split; [apply upsample_one |].
  unfold plane_eq. cbn [width height tabulate].
  repeat split.
  intros x y Hx Hy.
  rewrite (sample_tabulate _ _ _ _ _ Hx Hy). reflexivity.
Qed.

(** At factor 1 the coordinate map of section 4.1 of the spec is the
    identity, so its blend is the input sample: the spec and the library
    agree there, and differ only when the plane is enlarged. *)
Lemma center_aligned_coord_one (o : nat) :
  center_aligned_coord 1 o == inject_Z (Z.of_nat o).
Proof. unfold center_aligned_coord. field. Qed.

Lemma center_aligned_one (P : Plane) (x y : nat) :
  (x < width P)%nat -> (y < height P)%nat ->
  center_aligned_bilinear P 1 x y == sample P x y.
Proof.
  intros Hx Hy. unfold center_aligned_bilinear. cbv zeta.
  rewrite (Qfloor_comp _ _ (center_aligned_coord_one x)), Qfloor_Z.
  rewrite (Qfloor_comp _ _ (center_aligned_coord_one y)), Qfloor_Z.
  rewrite (center_aligned_coord_one x), (center_aligned_coord_one y).
  unfold edge_sample at 1.
  rewrite (clamp_inside _ _ Hx), (clamp_inside _ _ Hy).
  ring.
Qed.

Lemma floor_fraction (u : Q) :
  0 <= u - inject_Z (Qfloor u) /\ u - inject_Z (Qfloor u) < 1.
Proof.
  pose proof (Qfloor_le u) as Hle.
  pose proof (Qlt_floor u) as Hlt.
  rewrite inject_Z_plus in Hlt.
  change (inject_Z 1) with 1 in Hlt.
  split; lra.
Qed.

(** C1, as the code has it: for a factor F that is a positive power of
    two, upsample succeeds and its sample at (x, y) is the bilinear blend
    of the four input samples around an input coordinate, with every index
    first clamped to [0, W-1] or [0, H-1].  The input coordinate of output
    coordinate o is o / F - 0.5 when the plane is enlarged (F >= 2), not
    (o + 0.5) / F - 0.5; at F = 1 it is o itself.  [ix], [iy] are the
    integer parts of the two coordinates and [fx], [fy] the fractions in
    [0, 1). *)
Theorem upsample_bilinear_half_pixel (P : Plane) (k x y : nat) :
  let F := (2 ^ Z.of_nat k)%Z in
  let coord := fun o : nat =>
    if (F =? 1)%Z then inject_Z (Z.of_nat o)
    else inject_Z (Z.of_nat o) / inject_Z F - 0.5 in
  let E := fun i j : Z =>
    sample P
      (Z.to_nat (Z.max 0 (Z.min (Z.of_nat (width P) - 1) i)))
      (Z.to_nat (Z.max 0 (Z.min (Z.of_nat (height P) - 1) j))) in
  (x < width P * Z.to_nat F)%nat ->
  (y < height P * Z.to_nat F)%nat ->
  exists (P' : Plane) (ix iy : Z) (fx fy : Q),
    upsample P F = Ok P' /\
    inject_Z ix + fx == coord x /\
    inject_Z iy + fy == coord y /\
    (0 <= fx /\ fx < 1) /\ (0 <= fy /\ fy < 1) /\
    sample P' x y ==
      (1 - fy) * ((1 - fx) * E ix iy + fx * E (ix + 1)%Z iy)
      + fy * ((1 - fx) * E ix (iy + 1)%Z + fx * E (ix + 1)%Z (iy + 1)%Z).
Proof.
  intros F coord E Hx Hy.
  destruct k as [| k'].
  - (* factor 1: the samples are handed on *)
    change (Z.to_nat F) with 1%nat in Hx, Hy.
    rewrite Nat.mul_1_r in Hx, Hy.
    exists (tabulate (width P) (height P) (sample P)).
    exists (Z.of_nat x), (Z.of_nat y), 0, 0.
    split; [apply upsample_one |].
    split; [unfold coord; change (F =? 1)%Z with true; cbv iota; ring |].
    split; [unfold coord; change (F =? 1)%Z with true; cbv iota; ring |].
    split; [split; [apply Qle_refl | reflexivity] |].
    split; [split; [apply Qle_refl | reflexivity] |].
    rewrite (sample_tabulate _ _ _ _ _ Hx Hy).
    assert (HE : E (Z.of_nat x) (Z.of_nat y) = sample P x y).
    { unfold E. f_equal; lia. }
    rewrite HE. ring.
  - (* factor 2 or more: the plane is interpolated *)
    assert (HF : (1 < F)%Z).
    { unfold F. apply Z.pow_gt_1; lia. }
    assert (Hne : (F =? 1)%Z = false) by (apply Z.eqb_neq; lia).
    exists (tabulate (width P * Z.to_nat F) (height P * Z.to_nat F)
              (bilinear P F)).
    exists (Qfloor (input_coord F x)), (Qfloor (input_coord F y)).
    exists (input_coord F x - inject_Z (Qfloor (input_coord F x))).
    exists (input_coord F y - inject_Z (Qfloor (input_coord F y))).
    split; [apply upsample_enlarge; exact HF |].
    split; [unfold coord, input_coord; rewrite Hne; ring |].
    split; [unfold coord, input_coord; rewrite Hne; ring |].
    split; [apply floor_fraction |].
    split; [apply floor_fraction |].
    rewrite (sample_tabulate _ _ _ _ _ Hx Hy).
    reflexivity.
Qed.

Lemma upsample_bilinear_half_pixel_witness :
  exists (P' : Plane) (ix iy : Z) (fx fy : Q),
    upsample (mkPlane 2 1 [[0; 4]]) (2 ^ Z.of_nat 1)%Z = Ok P' /\
    inject_Z ix + fx == inject_Z (Z.of_nat 2) / inject_Z (2 ^ Z.of_nat 1)%Z - 0.5 /\
    inject_Z iy + fy == inject_Z (Z.of_nat 0) / inject_Z (2 ^ Z.of_nat 1)%Z - 0.5 /\
    (0 <= fx /\ fx < 1) /\ (0 <= fy /\ fy < 1) /\
    sample P' 2 0 ==
      (1 - fy) *
        ((1 - fx) *
           sample (mkPlane 2 1 [[0; 4]])
             (Z.to_nat (Z.max 0 (Z.min (Z.of_nat 2 - 1) ix)))
             (Z.to_nat (Z.max 0 (Z.min (Z.of_nat 1 - 1) iy)))
         + fx *
           sample (mkPlane 2 1 [[0; 4]])
             (Z.to_nat (Z.max 0 (Z.min (Z.of_nat 2 - 1) (ix + 1))))
             (Z.to_nat (Z.max 0 (Z.min (Z.of_nat 1 - 1) iy))))
      + fy *
        ((1 - fx) *
           sample (mkPlane 2 1 [[0; 4]])
             (Z.to_nat (Z.max 0 (Z.min (Z.of_nat 2 - 1) ix)))
             (Z.to_nat (Z.max 0 (Z.min (Z.of_nat 1 - 1) (iy + 1))))
         + fx *
           sample (mkPlane 2 1 [[0; 4]])
             (Z.to_nat (Z.max 0 (Z.min (Z.of_nat 2 - 1) (ix + 1))))
             (Z.to_nat (Z.max 0 (Z.min (Z.of_nat 1 - 1) (iy + 1))))).
Proof.
  apply (upsample_bilinear_half_pixel (mkPlane 2 1 [[0; 4]]) 1 2 0);
    vm_compute; lia.
Defined.

(** C1 as the spec states it fails: on the row 0, 4 and factor 2 the
    sample at x = 1 is 0, where the blend around (1 + 0.5)/2 - 0.5 = 0.25
    is 1. *)
Lemma upsample_not_center_aligned :
  exists P',
    upsample (mkPlane 2 1 [[0; 4]]) 2 = Ok P' /\
    sample P' 1 0 == 0 /\
    center_aligned_bilinear (mkPlane 2 1 [[0; 4]]) 2 1 0 == 1 /\
    ~ sample P' 1 0 == center_aligned_bilinear (mkPlane 2 1 [[0; 4]]) 2 1 0.
Proof.
  eexists. split; [vm_compute; reflexivity |].
  split; [vm_compute; reflexivity |].
  split; [vm_compute; reflexivity |].
  intro H. vm_compute in H. discriminate H.
Qed.

(** On the row 0, 4 the factor 2 gives 0, 0, 2, 4; on the row 0, 8 the
    factor 4 gives 0, 0, 0, 2, 4, 6, 8, 8. *)
Example upsample_rows :
  exists P' P'',
    upsample (mkPlane 2 1 [[0; 4]]) subsample = Ok P' /\
    Forall2 Qeq (nth 0 (samples P') []) [0; 0; 2; 4] /\
    upsample (mkPlane 2 1 [[0; 8]]) 4 = Ok P'' /\
    Forall2 Qeq (nth 0 (samples P'') []) [0; 0; 0; 2; 4; 6; 8; 8].
Proof.
  do 2 eexists. split; [vm_compute; reflexivity |].
  split; [repeat constructor |].
  split; [vm_compute; reflexivity |].
  repeat constructor.
Qed.

(** ** Joining planes *)

Lemma extend_same (w h : nat) (P : Plane) :
  width P = w -> height P = h -> extend w h P = P.
Proof.
  intros <- <-. unfold extend. now rewrite !Nat.eqb_refl.
Qed.

Lemma extend_size (w h : nat) (P : Plane) :
  width (extend w h P) = w /\ height (extend w h P) = h.
Proof.
  unfold extend.
  destruct (width P =? w)%nat eqn:Ew; destruct (height P =? h)%nat eqn:Eh;
    cbn [andb]; try (split; reflexivity).
  apply Nat.eqb_eq in Ew, Eh. split; assumption.
Qed.

(** Inside the old bounds an extended plane keeps its samples, outside
    them it is zero. *)
Lemma extend_sample (w h : nat) (P : Plane) (x y : nat) :
  (x < w)%nat -> (y < h)%nat ->
  sample (extend w h P) x y
  = if ((x <? width P) && (y <? height P))%nat then sample P x y else 0.
Proof.
  intros Hx Hy. unfold extend.
  destruct (width P =? w)%nat eqn:Ew; destruct (height P =? h)%nat eqn:Eh;
    cbn [andb]; try (apply sample_tabulate; assumption).
  apply Nat.eqb_eq in Ew, Eh. subst w h.
  apply Nat.ltb_lt in Hx, Hy. now rewrite Hx, Hy.
Qed.

(** ** Colour transform *)

Section Transform.

Variables Y Cb Cr : Plane.

Lemma join_any :
  bandjoin (gray Y) [gray Cb; gray Cr] =
  Ok (mkImage
        (map (extend (largest (width Y) (width Cb) (width Cr))
                     (largest (height Y) (height Cb) (height Cr)))
             [Y; Cb; Cr])
        multiband).
Proof.
  cbn [bandjoin SpecVips]. unfold join_bands, largest.
  cbn [bands gray map concat app fold_right width height].
  now rewrite !Nat.max_0_r.
Qed.

Lemma join_ok :
  same_dimensions Y Cb Cr ->
  bandjoin (gray Y) [gray Cb; gray Cr] = Ok (mkImage [Y; Cb; Cr] multiband).
Proof.
  intros (Hwb & Hhb & Hwr & Hhr).
  rewrite join_any. unfold largest. rewrite Hwb, Hhb, Hwr, Hhr, !Nat.max_id.
  cbn [map]. rewrite !extend_same by (reflexivity || assumption).
  reflexivity.
Qed.

Lemma transform_ok (matrix : list (list Q)) (offs : list Q) :
  same_dimensions Y Cb Cr ->
  transform (gray Y) (gray Cb) (gray Cr) matrix offs =
  Ok (mkImage
        (map (fun row =>
                tabulate (width Y) (height Y)
                  (fun x y => dot row (pixel (shifted Y Cb Cr offs) x y)))
             matrix)
        srgb).
Proof.
  intro Hd. unfold transform. rewrite (join_ok Hd).
  reflexivity.
Qed.

Lemma shifted_pixel (offs : list Q) (x y : nat) :
  same_dimensions Y Cb Cr ->
  (x < width Y)%nat -> (y < height Y)%nat ->
  pixel (shifted Y Cb Cr offs) x y =
  [ sample Y x y - nth 0 offs 0;
    sample Cb x y - nth 1 offs 0;
    sample Cr x y - nth 2 offs 0 ].
Proof.
  intros (Hwb & Hhb & Hwr & Hhr) Hx Hy.
  unfold pixel, shifted. cbn [bands map nth].
  rewrite !sample_tabulate; try reflexivity; lia.
Qed.

(** Every output sample is the plain linear form of the three shifted
    input samples. *)
Lemma transform_sample (a b c o0 o1 o2 : Q) (x y : nat) :
  same_dimensions Y Cb Cr ->
  (x < width Y)%nat -> (y < height Y)%nat ->
  sample (tabulate (width Y) (height Y)
            (fun x y => dot [a; b; c] (pixel (shifted Y Cb Cr [o0; o1; o2]) x y)))
         x y
  == a * (sample Y x y - o0) + b * (sample Cb x y - o1)
     + c * (sample Cr x y - o2).
Proof.
  intros Hd Hx Hy.
  rewrite (sample_tabulate _ _ _ _ _ Hx Hy).
  rewrite (shifted_pixel _ _ _ Hd Hx Hy).
  unfold dot. cbn [combine map fold_right nth]. ring.
Qed.

End Transform.

(** The result of the transform on three planes of one size, band by
    band. *)
Lemma transform_bands (Y Cb Cr : Plane) (a b c d e f g h i o0 o1 o2 : Q) :
  same_dimensions Y Cb Cr ->
  exists R G B,
    transform (gray Y) (gray Cb) (gray Cr)
      [[a; b; c]; [d; e; f]; [g; h; i]] [o0; o1; o2]
    = Ok (mkImage [R; G; B] srgb) /\
    (width R = width Y /\ height R = height Y /\ wf_plane R) /\
    (width G = width Y /\ height G = height Y /\ wf_plane G) /\
    (width B = width Y /\ height B = height Y /\ wf_plane B) /\
    forall x y, (x < width Y)%nat -> (y < height Y)%nat ->
      sample R x y == a * (sample Y x y - o0) + b * (sample Cb x y - o1)
                      + c * (sample Cr x y - o2) /\
      sample G x y == d * (sample Y x y - o0) + e * (sample Cb x y - o1)
                      + f * (sample Cr x y - o2) /\
      sample B x y == g * (sample Y x y - o0) + h * (sample Cb x y - o1)
                      + i * (sample Cr x y - o2).
Proof.
  intro Hd.
  do 3 eexists. split.
  - rewrite (transform_ok Y Cb Cr _ _ Hd). cbn [map]. reflexivity.
  - repeat split; try apply wf_tabulate;
      apply transform_sample; assumption.
Qed.

(** C7: the transform returns, for every input of one size, exactly the
    linear form of the shifted samples in each band; nothing is clamped or
    rescaled and no value of the result makes the call fail. *)
Theorem transform_unclamped (Y Cb Cr : Plane)
    (a b c d e f g h i o0 o1 o2 : Q) :
  same_dimensions Y Cb Cr ->
  exists rgb,
    transform (gray Y) (gray Cb) (gray Cr)
      [[a; b; c]; [d; e; f]; [g; h; i]] [o0; o1; o2] = Ok rgb /\
    forall x y, (x < width Y)%nat -> (y < height Y)%nat ->
      sample (band rgb 0) x y
        == a * (sample Y x y - o0) + b * (sample Cb x y - o1)
           + c * (sample Cr x y - o2) /\
      sample (band rgb 1) x y
        == d * (sample Y x y - o0) + e * (sample Cb x y - o1)
           + f * (sample Cr x y - o2) /\
      sample (band rgb 2) x y
        == g * (sample Y x y - o0) + h * (sample Cb x y - o1)
           + i * (sample Cr x y - o2).
Proof.
  intro Hd.
  destruct (transform_bands Y Cb Cr a b c d e f g h i o0 o1 o2 Hd)
    as (R & G & B & Ht & _ & _ & _ & Hs).
  exists (mkImage [R; G; B] srgb). split; [exact Ht |].
  intros x y Hx Hy. exact (Hs x y Hx Hy).
Qed.

(** Two pixels, (16, 128, 255) and (255, 128, 255): green of the first is
    below 0 and red of the second above 255, and both are returned. *)
Lemma transform_unclamped_witness :
  exists rgb,
    transform (gray (mkPlane 2 1 [[16; 255]])) (gray (mkPlane 2 1 [[128; 128]]))
      (gray (mkPlane 2 1 [[255; 255]])) ycc2rgb [16; 128; 128] = Ok rgb /\
    sample (band rgb 1) 0 0 < 0 /\ 255 < sample (band rgb 0) 1 0.
Proof.
  destruct (transform_unclamped
              (mkPlane 2 1 [[16; 255]]) (mkPlane 2 1 [[128; 128]])
              (mkPlane 2 1 [[255; 255]])
              1.0 0.0 1.402 1.0 (-0.344136) (-0.714136) 1.0 1.772 0.0
              16 128 128)
    as (rgb & Ht & Hs).
  - repeat split.
  - exists rgb. split; [exact Ht |].
    destruct (Hs 0%nat 0%nat) as (_ & HG & _); [cbn; lia | cbn; lia |].
    destruct (Hs 1%nat 0%nat) as (HR & _ & _); [cbn; lia | cbn; lia |].
    rewrite HG, HR. split; reflexivity.
Defined.

(** C8: on three planes of one size the transform joins them in the order
    Y, Cb, Cr, then shifts and recombines, and returns three bands of the
    size of the input planes tagged sRGB. *)
Theorem transform_three_bands_srgb (Y Cb Cr : Plane)
    (a b c d e f g h i o0 o1 o2 : Q) :
  same_dimensions Y Cb Cr ->
  exists J rgb R G B,
    bandjoin (gray Y) [gray Cb; gray Cr] = Ok J /\
    bands J = [Y; Cb; Cr] /\
    transform (gray Y) (gray Cb) (gray Cr)
      [[a; b; c]; [d; e; f]; [g; h; i]] [o0; o1; o2]
    = (S <- sub_const J [o0; o1; o2] ;;
       M <- recomb S [[a; b; c]; [d; e; f]; [g; h; i]] ;;
       copy M srgb) /\
    transform (gray Y) (gray Cb) (gray Cr)
      [[a; b; c]; [d; e; f]; [g; h; i]] [o0; o1; o2] = Ok rgb /\
    bands rgb = [R; G; B] /\
    (width R = width Y /\ height R = height Y /\ wf_plane R) /\
    (width G = width Y /\ height G = height Y /\ wf_plane G) /\
    (width B = width Y /\ height B = height Y /\ wf_plane B) /\
    tag rgb = srgb.
Proof.
  intro Hd.
  destruct (transform_bands Y Cb Cr a b c d e f g h i o0 o1 o2 Hd)
    as (R & G & B & Ht & HR & HG & HB & _).
  exists (mkImage [Y; Cb; Cr] multiband), (mkImage [R; G; B] srgb), R, G, B.
  split; [apply join_ok; exact Hd |].
  split; [reflexivity |].
  split; [unfold transform; rewrite (join_ok Y Cb Cr Hd); reflexivity |].
  split; [exact Ht |].
  repeat split; try apply HR; try apply HG; try apply HB.
Qed.

Lemma transform_three_bands_srgb_witness :
  exists rgb R G B,
    transform (gray (solid 2 2 116)) (gray (solid 2 2 128))
      (gray (solid 2 2 128)) ycc2rgb [16; 128; 128] = Ok rgb /\
    bands rgb = [R; G; B] /\ tag rgb = srgb.
Proof.
  destruct (transform_three_bands_srgb
              (solid 2 2 116) (solid 2 2 128) (solid 2 2 128)
              1.0 0.0 1.402 1.0 (-0.344136) (-0.714136) 1.0 1.772 0.0
              16 128 128)
    as (J & rgb & R & G & B & _ & _ & _ & Ht & Hb & _ & _ & _ & Htag).
  - repeat split.
  - exists rgb, R, G, B. repeat split; assumption.
Defined.

(** C2: on planes that hold Y=16, Cb=128, Cr=255 at every pixel, the
    transform with the script's matrix and offsets returns, at every pixel,
    R = 1.402*127 (178.05 to two decimals), G = -0.714136*127 (-90.70 to
    two decimals) and B = 0, with no clamping. *)
Theorem known_point_16_128_255 (Y Cb Cr : Plane) :
  same_dimensions Y Cb Cr ->
  (forall x y, (x < width Y)%nat -> (y < height Y)%nat ->
     sample Y x y == 16 /\ sample Cb x y == 128 /\ sample Cr x y == 255) ->
  exists rgb,
    transform (gray Y) (gray Cb) (gray Cr) ycc2rgb [16; 128; 128] = Ok rgb /\
    forall x y, (x < width Y)%nat -> (y < height Y)%nat ->
      sample (band rgb 0) x y == 1.402 * 127 /\
      Qabs (sample (band rgb 0) x y - 178.05) <= 0.005 /\
      sample (band rgb 1) x y == -0.714136 * 127 /\
      Qabs (sample (band rgb 1) x y - (-90.70)) <= 0.005 /\
      sample (band rgb 2) x y == 0.
Proof.
  intros Hd Hc.
  destruct (transform_bands Y Cb Cr
              1.0 0.0 1.402 1.0 (-0.344136) (-0.714136) 1.0 1.772 0.0
              16 128 128 Hd)
    as (R & G & B & Ht & _ & _ & _ & Hs).
  exists (mkImage [R; G; B] srgb). split; [exact Ht |].
  intros x y Hx Hy.
  destruct (Hs x y Hx Hy) as (HR & HG & HB).
  destruct (Hc x y Hx Hy) as (HY & HCb & HCr).
  rewrite HY, HCb, HCr in HR, HG, HB.
  cbn [band bands nth].
  rewrite HR, HG, HB.
  repeat split; try reflexivity;
    apply Qabs_Qle_condition; split; reflexivity || (vm_compute; discriminate).
Qed.

Lemma known_point_16_128_255_witness :
  exists rgb,
    transform (gray (solid 2 2 16)) (gray (solid 2 2 128))
      (gray (solid 2 2 255)) ycc2rgb [16; 128; 128] = Ok rgb /\
    sample (band rgb 0) 1 1 == 178.054 /\
    sample (band rgb 1) 1 1 == -90.695272 /\
    sample (band rgb 2) 1 1 == 0.
Proof.
  destruct (known_point_16_128_255
              (solid 2 2 16) (solid 2 2 128) (solid 2 2 255))
    as (rgb & Ht & Hs).
  - repeat split.
  - intros x y Hx Hy. cbn in Hx, Hy. unfold solid.
    rewrite !sample_tabulate by assumption. repeat split; reflexivity.
  - exists rgb. split; [exact Ht |].
    destruct (Hs 1%nat 1%nat) as (HR & _ & HG & _ & HB); [cbn; lia | cbn; lia |].
    rewrite HR, HG, HB. repeat split; reflexivity.
Defined.

(** C3: on planes that hold Y=116, Cb=128, Cr=128 at every pixel, the
    transform with the script's matrix and offsets returns R = G = B = 100
    at every pixel, hence within 0.01 of 100. *)
Theorem solid_116_128_128_gives_100 (Y Cb Cr : Plane) :
  same_dimensions Y Cb Cr ->
  (forall x y, (x < width Y)%nat -> (y < height Y)%nat ->
     sample Y x y == 116 /\ sample Cb x y == 128 /\ sample Cr x y == 128) ->
  exists rgb,
    transform (gray Y) (gray Cb) (gray Cr) ycc2rgb [16; 128; 128] = Ok rgb /\
    forall x y k, (x < width Y)%nat -> (y < height Y)%nat -> (k < 3)%nat ->
      sample (band rgb k) x y == 100 /\
      Qabs (sample (band rgb k) x y - 100) <= 0.01.
Proof.
  intros Hd Hc.
  destruct (transform_bands Y Cb Cr
              1.0 0.0 1.402 1.0 (-0.344136) (-0.714136) 1.0 1.772 0.0
              16 128 128 Hd)
    as (R & G & B & Ht & _ & _ & _ & Hs).
  exists (mkImage [R; G; B] srgb). split; [exact Ht |].
  intros x y k Hx Hy Hk.
  destruct (Hs x y Hx Hy) as (HR & HG & HB).
  destruct (Hc x y Hx Hy) as (HY & HCb & HCr).
  rewrite HY, HCb, HCr in HR, HG, HB.
  assert (Hband : sample (band (mkImage [R; G; B] srgb) k) x y == 100).
  { destruct k as [| [| [| k]]]; [| | | lia]; cbn [band bands nth].
    - rewrite HR. reflexivity.
    - rewrite HG. reflexivity.
    - rewrite HB. reflexivity. }
  split; [exact Hband |].
  rewrite Hband. vm_compute. discriminate.
Qed.

Lemma solid_116_128_128_gives_100_witness :
  exists rgb,
    transform (gray (solid 2 2 116)) (gray (solid 2 2 128))
      (gray (solid 2 2 128)) ycc2rgb [16; 128; 128] = Ok rgb /\
    sample (band rgb 0) 0 1 == 100 /\
    sample (band rgb 1) 0 1 == 100 /\
    sample (band rgb 2) 0 1 == 100.
Proof.
  destruct (solid_116_128_128_gives_100
              (solid 2 2 116) (solid 2 2 128) (solid 2 2 128))
    as (rgb & Ht & Hs).
  - repeat split.
  - intros x y Hx Hy. cbn in Hx, Hy. unfold solid.
    rewrite !sample_tabulate by assumption. repeat split; reflexivity.
  - exists rgb. split; [exact Ht |].
    repeat split; apply Hs; cbn; lia.
Defined.


(** ** Planes of different sizes *)

(** The transform on any three planes is the transform on the same
    planes extended to the largest width and height. *)
Lemma transform_extend (Y Cb Cr : Plane) (matrix : list (list Q))
    (offs : list Q) :
  transform (gray Y) (gray Cb) (gray Cr) matrix offs =
  transform
    (gray (extend (largest (width Y) (width Cb) (width Cr))
                  (largest (height Y) (height Cb) (height Cr)) Y))
    (gray (extend (largest (width Y) (width Cb) (width Cr))
                  (largest (height Y) (height Cb) (height Cr)) Cb))
    (gray (extend (largest (width Y) (width Cb) (width Cr))
                  (largest (height Y) (height Cb) (height Cr)) Cr))
    matrix offs.
Proof.
  unfold transform. rewrite join_any.
  set (w := largest (width Y) (width Cb) (width Cr)).
  set (h := largest (height Y) (height Cb) (height Cr)).
  destruct (extend_size w h Y) as [HwY HhY].
  destruct (extend_size w h Cb) as [HwB HhB].
  destruct (extend_size w h Cr) as [HwR HhR].
  rewrite join_ok; [reflexivity |].
  unfold same_dimensions. repeat split; congruence.
Qed.

(** What the transform returns on any three planes: the joined bands,
    the size of the result and every sample. *)
Lemma transform_padded (Y Cb Cr : Plane)
    (a b c d e f g h i o0 o1 o2 : Q) :
  let w := largest (width Y) (width Cb) (width Cr) in
  let hh := largest (height Y) (height Cb) (height Cr) in
  let pad := fun (P : Plane) (x y : nat) =>
    if ((x <? width P) && (y <? height P))%nat then sample P x y else 0 in
  exists J rgb R G B,
    bandjoin (gray Y) [gray Cb; gray Cr] = Ok J /\
    transform (gray Y) (gray Cb) (gray Cr)
      [[a; b; c]; [d; e; f]; [g; h; i]] [o0; o1; o2] = Ok rgb /\
    bands rgb = [R; G; B] /\ tag rgb = srgb /\
    (width R = w /\ height R = hh) /\
    (width G = w /\ height G = hh) /\
    (width B = w /\ height B = hh) /\
    forall x y, (x < w)%nat -> (y < hh)%nat ->
      sample (band J 0) x y = pad Y x y /\
      sample (band J 1) x y = pad Cb x y /\
      sample (band J 2) x y = pad Cr x y /\
      sample R x y == a * (pad Y x y - o0) + b * (pad Cb x y - o1)
                      + c * (pad Cr x y - o2) /\
      sample G x y == d * (pad Y x y - o0) + e * (pad Cb x y - o1)
                      + f * (pad Cr x y - o2) /\
      sample B x y == g * (pad Y x y - o0) + h * (pad Cb x y - o1)
                      + i * (pad Cr x y - o2).
Proof.
  intros w hh pad.
  pose proof (extend_size w hh Y) as [HwY HhY].
  pose proof (extend_size w hh Cb) as [HwB HhB].
  pose proof (extend_size w hh Cr) as [HwR HhR].
  assert (Hd : same_dimensions (extend w hh Y) (extend w hh Cb)
                 (extend w hh Cr)).
  { unfold same_dimensions. repeat split; congruence. }
  destruct (transform_bands _ _ _ a b c d e f g h i o0 o1 o2 Hd)
    as (R & G & B & Ht & (HR1 & HR2 & _) & (HG1 & HG2 & _)
        & (HB1 & HB2 & _) & Hs).
  exists (mkImage [extend w hh Y; extend w hh Cb; extend w hh Cr] multiband).
  exists (mkImage [R; G; B] srgb), R, G, B.
  split; [apply join_any |].
  split; [rewrite transform_extend; exact Ht |].
  split; [reflexivity |]. split; [reflexivity |].
  split; [split; congruence |].
  split; [split; congruence |].
  split; [split; congruence |].
  intros x y Hx Hy.
  cbn [band bands nth].
  rewrite !extend_sample by assumption. fold (pad Y x y) (pad Cb x y) (pad Cr x y).
  split; [reflexivity |]. split; [reflexivity |]. split; [reflexivity |].
  destruct (Hs x y) as (HsR & HsG & HsB); [lia | lia |].
  rewrite !extend_sample in HsR, HsG, HsB by assumption.
  repeat split; assumption.
Qed.

(** C6, as the code has it: the transform has no size check.  On any
    three planes, also of different sizes, it succeeds and raises no
    DimensionMismatch; every plane smaller than the largest width and
    height is extended with zero samples on the right and at the bottom,
    none is cropped, and the three result bands have the largest width
    and height. *)
Theorem transform_pads_to_largest (Y Cb Cr : Plane)
    (a b c d e f g h i o0 o1 o2 : Q) :
  let w := largest (width Y) (width Cb) (width Cr) in
  let hh := largest (height Y) (height Cb) (height Cr) in
  let pad := fun (P : Plane) (x y : nat) =>
    if ((x <? width P) && (y <? height P))%nat then sample P x y else 0 in
  exists J rgb R G B,
    bandjoin (gray Y) [gray Cb; gray Cr] = Ok J /\
    transform (gray Y) (gray Cb) (gray Cr)
      [[a; b; c]; [d; e; f]; [g; h; i]] [o0; o1; o2] = Ok rgb /\
    bands rgb = [R; G; B] /\ tag rgb = srgb /\
    (width R = w /\ height R = hh) /\
    (width G = w /\ height G = hh) /\
    (width B = w /\ height B = hh) /\
    forall x y, (x < w)%nat -> (y < hh)%nat ->
      sample (band J 0) x y = pad Y x y /\
      sample (band J 1) x y = pad Cb x y /\
      sample (band J 2) x y = pad Cr x y /\
      sample R x y == a * (pad Y x y - o0) + b * (pad Cb x y - o1)
                      + c * (pad Cr x y - o2) /\
      sample G x y == d * (pad Y x y - o0) + e * (pad Cb x y - o1)
                      + f * (pad Cr x y - o2) /\
      sample B x y == g * (pad Y x y - o0) + h * (pad Cb x y - o1)
                      + i * (pad Cr x y - o2).
Proof.
  exact (transform_padded Y Cb Cr a b c d e f g h i o0 o1 o2).
Qed.

(** C6 as the spec states it fails: Y of size 8x8 with chroma of size 4x4
    gives no DimensionMismatch but an 8x8 three-band image in which the
    chroma bands are zero outside their 4x4 corner before the shift, hence
    -128 after it: blue at (7, 7) is (0 - 16) + 1.772 (0 - 128). *)
Lemma transform_8x8_4x4_succeeds :
  exists rgb,
    transform (gray (solid 8 8 0)) (gray (solid 4 4 0)) (gray (solid 4 4 0))
      ycc2rgb [16; 128; 128] = Ok rgb /\
    length (bands rgb) = 3%nat /\
    image_width rgb = 8%nat /\ image_height rgb = 8%nat /\
    sample (band rgb 2) 7 7 == -16 + 1.772 * -128 /\
    transform (gray (solid 8 8 0)) (gray (solid 4 4 0)) (gray (solid 4 4 0))
      ycc2rgb [16; 128; 128] <> Err DimensionMismatch.
Proof.
  eexists. split; [vm_compute; reflexivity |].
  split; [reflexivity |]. split; [reflexivity |]. split; [reflexivity |].
  split; [vm_compute; reflexivity |].
  intro H. vm_compute in H. discriminate H.
Qed.

(** ** The script over any library *)

Lemma bind_ok_inv {A B : Type} (r : result A) (k : A -> result B) (b : B) :
  bind r k = Ok b -> exists a, r = Ok a /\ k a = Ok b.
Proof.
  destruct r as [a | e]; cbn; intro H; [| discriminate].
  exists a. split; [reflexivity | exact H].
Qed.

Ltac bind_inv H :=
  let a := fresh "a" in
  let Ha := fresh "Ha" in
  apply bind_ok_inv in H; destruct H as (a & Ha & H).

Section ScriptFacts.

Context {image binary : Type} `{V : Vips image binary}.

(** [try2] is the two resizes followed by the transform stage with the
    script's matrix and offsets. *)
Lemma try2_transform (Y Cb Cr : image) :
  try2 Y Cb Cr =
  (Cb' <- resize Cb subsample linear ;;
   Cr' <- resize Cr subsample linear ;;
   transform Y Cb' Cr' ycc2rgb [16; 128; 128]).
Proof. reflexivity. Qed.

Lemma try3_try2 (Y Cb Cr : image) :
  try3 Y Cb Cr = (Rgb <- try2 Y Cb Cr ;; write_to_binary Rgb).
Proof.
  unfold try3, try2.
  destruct (resize Cb subsample linear) as [Cb' |]; [cbn [bind] | reflexivity].
  destruct (resize Cr subsample linear) as [Cr' |]; [cbn [bind] | reflexivity].
  destruct (bandjoin Y [Cb'; Cr']) as [J |]; [cbn [bind] | reflexivity].
  destruct (sub_const J [16; 128; 128]) as [S |]; [cbn [bind] | reflexivity].
  destruct (recomb S ycc2rgb) as [M |]; reflexivity.
Qed.

Lemma bench_try2 (msg : string) (Y Cb Cr : image) (r : string * value image binary) :
  bench msg Try2 Y Cb Cr = Ok r ->
  exists img img',
    try2 Y Cb Cr = Ok img /\ copy_memory img = Ok img' /\
    r = (msg, VImage img').
Proof.
  unfold bench, call, fmap. intro H.
  bind_inv H. bind_inv Ha. injection Ha as <-.
  bind_inv H. cbn [copy_memory_value] in Ha. unfold fmap in Ha.
  bind_inv Ha. injection Ha as <-. injection H as <-.
  eauto.
Qed.

(** C9 fails on the script: in every run that completes, the second
    [bench] statement, labelled "plus write_to_binary", calls [try2] again;
    it reports the same in-memory image as the first and no byte string is
    produced. *)
Theorem second_bench_runs_try2 (w h : Z)
    (log : list (string * value image binary)) :
  main w h = Ok log ->
  exists (Y Cb Cr img img' : image),
    try2 Y Cb Cr = Ok img /\ copy_memory img = Ok img' /\
    log = [ ("linear"%string, VImage img');
            ("plus write_to_binary"%string, VImage img') ].
Proof.
  unfold main. intro H.
  bind_inv H. bind_inv H. rename a0 into Y.
  bind_inv H. bind_inv H. rename a1 into Cb.
  bind_inv H. bind_inv H. rename a2 into Cr.
  bind_inv H. bind_inv H. injection H as <-.
  destruct (bench_try2 _ _ _ _ _ Ha5) as (i1 & i1' & Ht1 & Hc1 & ->).
  destruct (bench_try2 _ _ _ _ _ Ha6) as (i2 & i2' & Ht2 & Hc2 & ->).
  rewrite Ht1 in Ht2. injection Ht2 as <-.
  rewrite Hc1 in Hc2. injection Hc2 as <-.
  exists Y, Cb, Cr, i1, i1'. repeat split; assumption.
Qed.

End ScriptFacts.

Lemma second_bench_runs_try2_witness :
  exists log img,
    main 2 2 = Ok log /\
    nth_error log 1 = Some ("plus write_to_binary"%string, VImage img).
Proof.
  assert (Hm : exists log, main 2 2 = Ok log)
    by (eexists; vm_compute; reflexivity).
  destruct Hm as (log & Hm).
  destruct (second_bench_runs_try2 2 2 log Hm)
    as (Y & Cb & Cr & img & img' & _ & _ & ->).
  eexists. exists img'. split; [exact Hm | reflexivity].
Defined.


Lemma bind_err_iff {A B : Type} (r : result A) (k : A -> result B)
    (e : error) :
  bind r k = Err e <-> r = Err e \/ exists a, r = Ok a /\ k a = Err e.
Proof.
  destruct r as [a | e']; cbn [bind]; split.
  - intro H. right. exists a. split; [reflexivity | exact H].
  - intros [H | (a' & Ha & H)]; [discriminate |].
    injection Ha as <-. exact H.
  - intro H. left. congruence.
  - intros [H | (a' & Ha & _)]; [congruence | discriminate].
Qed.

Section Serialization.

Context {image binary : Type} `{V : Vips image binary}.

(** X3: [try3] fails exactly when [try2] fails, with the same error, or
    when [try2] returns an image whose serialization fails. *)
Theorem try3_err_iff (Y Cb Cr : image) (e : error) :
  try3 Y Cb Cr = Err e <->
  try2 Y Cb Cr = Err e \/
  exists img, try2 Y Cb Cr = Ok img /\ write_to_binary img = Err e.
Proof. rewrite try3_try2. apply bind_err_iff. Qed.

End Serialization.



(** ** Plane sizes chosen by the script *)

(** X6: the chroma side [n >> shift] scaled back by [subsample] is [n]
    rounded down to an even number; it is [n] itself exactly when [n] is
    even, so for an odd side the resized chroma is one sample short of
    the luma. *)
Theorem chroma_side_resized (n : Z) :
  (Z.shiftr n shift * subsample = n - n mod 2)%Z /\
  ((Z.shiftr n shift * subsample = n)%Z <-> Z.even n = true).
Proof.
  unfold shift. change subsample with 2%Z.
  rewrite Z.shiftr_div_pow2 by lia. change (2 ^ 1)%Z with 2%Z.
  pose proof (Z.div_mod n 2 ltac:(lia)) as Hdm.
  pose proof (Z.mod_pos_bound n 2 ltac:(lia)) as Hb.
  split; [lia |].
  rewrite Zeven_bool_iff, Zeven_ex_iff. split.
  - intro H. exists (n / 2)%Z. lia.
  - intros (m & ->). rewrite (Z.mul_comm 2 m), Z.div_mul by lia. reflexivity.
Qed.

(** ** The script on the modelled library *)

(** On one-band inputs [try2] is the upsampler run on Cb and on Cr,
    followed by the transform. *)
Lemma try2_upsample_transform (Y Cb Cr : Plane) :
  try2 (gray Y) (gray Cb) (gray Cr) =
  (Cb' <- upsample Cb subsample ;;
   Cr' <- upsample Cr subsample ;;
   transform (gray Y) (gray Cb') (gray Cr') ycc2rgb [16; 128; 128]).
Proof.
  rewrite try2_transform.
  cbn [resize SpecVips resize_image gray bands tag mapM].
  destruct (upsample Cb subsample) as [Cb' |]; [cbn [bind] | reflexivity].
  destruct (upsample Cr subsample) as [Cr' |]; reflexivity.
Qed.

(** What [try2] returns on a luma plane and two half-size chroma planes:
    the three bands, their size, and every sample. *)
Lemma try2_samples (Y Cb Cr : Plane) :
  chroma_half Y Cb Cr ->
  exists R G B,
    try2 (gray Y) (gray Cb) (gray Cr) = Ok (mkImage [R; G; B] srgb) /\
    (width R = width Y /\ height R = height Y /\ wf_plane R) /\
    (width G = width Y /\ height G = height Y /\ wf_plane G) /\
    (width B = width Y /\ height B = height Y /\ wf_plane B) /\
    forall x y, (x < width Y)%nat -> (y < height Y)%nat ->
      sample R x y
        == 1.0 * (sample Y x y - 16) + 0.0 * (bilinear Cb 2 x y - 128)
           + 1.402 * (bilinear Cr 2 x y - 128) /\
      sample G x y
        == 1.0 * (sample Y x y - 16) + -0.344136 * (bilinear Cb 2 x y - 128)
           + -0.714136 * (bilinear Cr 2 x y - 128) /\
      sample B x y
        == 1.0 * (sample Y x y - 16) + 1.772 * (bilinear Cb 2 x y - 128)
           + 0.0 * (bilinear Cr 2 x y - 128).
Proof.
  intros (HwY & HhY & HwR & HhR).
  rewrite try2_upsample_transform.
  rewrite !upsample_enlarge by (vm_compute; reflexivity). cbn [bind].
  change (Z.to_nat subsample) with 2%nat. change subsample with 2%Z.
  rewrite HwR, HhR, <- HwY, <- HhY.
  set (Cb' := tabulate (width Y) (height Y) (bilinear Cb 2)).
  set (Cr' := tabulate (width Y) (height Y) (bilinear Cr 2)).
  assert (Hd : same_dimensions Y Cb' Cr') by (repeat split).
  destruct (transform_bands Y Cb' Cr'
              1.0 0.0 1.402 1.0 (-0.344136) (-0.714136) 1.0 1.772 0.0
              16 128 128 Hd)
    as (R & G & B & Ht & HR & HG & HB & Hs).
  exists R, G, B. split; [exact Ht |].
  split; [exact HR |]. split; [exact HG |]. split; [exact HB |].
  intros x y Hx Hy.
  destruct (Hs x y Hx Hy) as (HsR & HsG & HsB).
  unfold Cb', Cr' in HsR, HsG, HsB.
  rewrite !sample_tabulate in HsR, HsG, HsB by assumption.
  repeat split; assumption.
Qed.

(** X10: on a luma plane and two chroma planes of half its width and
    height, [try2] succeeds and returns exactly three bands, each a
    well-formed grid of the luma's width and height, tagged sRGB. *)
Theorem try2_result_shape (Y Cb Cr : Plane) :
  chroma_half Y Cb Cr ->
  exists rgb R G B,
    try2 (gray Y) (gray Cb) (gray Cr) = Ok rgb /\
    bands rgb = [R; G; B] /\ tag rgb = srgb /\
    (width R = width Y /\ height R = height Y /\ wf_plane R) /\
    (width G = width Y /\ height G = height Y /\ wf_plane G) /\
    (width B = width Y /\ height B = height Y /\ wf_plane B).
Proof.
  intro Hc.
  destruct (try2_samples Y Cb Cr Hc) as (R & G & B & Ht & HR & HG & HB & _).
  exists (mkImage [R; G; B] srgb), R, G, B.
  repeat split; try assumption; try apply HR; try apply HG; try apply HB.
Qed.

Lemma try2_result_shape_witness :
  exists rgb R G B,
    try2 (gray (solid 4 2 116)) (gray (solid 2 1 128)) (gray (solid 2 1 128))
      = Ok rgb /\
    bands rgb = [R; G; B] /\ tag rgb = srgb /\
    (width R = 4 /\ height R = 2)%nat.
Proof.
  destruct (try2_result_shape (solid 4 2 116) (solid 2 1 128) (solid 2 1 128))
    as (rgb & R & G & B & Ht & Hb & Htag & (HwR & HhR & _) & _).
  - repeat split.
  - exists rgb, R, G, B. repeat split; assumption.
Defined.

(** X11: the samples [try2] returns, with c_b and c_r the chroma planes
    upsampled by 2 at the same pixel: R = (Y - 16) + 1.402 (c_r - 128),
    G = (Y - 16) - 0.344136 (c_b - 128) - 0.714136 (c_r - 128),
    B = (Y - 16) + 1.772 (c_b - 128).  Red does not depend on Cb, blue
    does not depend on Cr, and luma enters every channel with weight 1. *)
Theorem try2_pixel_formula (Y Cb Cr : Plane) :
  chroma_half Y Cb Cr ->
  exists rgb,
    try2 (gray Y) (gray Cb) (gray Cr) = Ok rgb /\
    forall x y, (x < width Y)%nat -> (y < height Y)%nat ->
      sample (band rgb 0) x y
        == (sample Y x y - 16) + 1.402 * (bilinear Cr 2 x y - 128) /\
      sample (band rgb 1) x y
        == (sample Y x y - 16) - 0.344136 * (bilinear Cb 2 x y - 128)
           - 0.714136 * (bilinear Cr 2 x y - 128) /\
      sample (band rgb 2) x y
        == (sample Y x y - 16) + 1.772 * (bilinear Cb 2 x y - 128).
Proof.
  intro Hc.
  destruct (try2_samples Y Cb Cr Hc) as (R & G & B & Ht & _ & _ & _ & Hs).
  exists (mkImage [R; G; B] srgb). split; [exact Ht |].
  intros x y Hx Hy. destruct (Hs x y Hx Hy) as (HR & HG & HB).
  cbn [band bands nth]. rewrite HR, HG, HB.
  repeat split; ring.
Qed.

Lemma try2_pixel_formula_witness :
  exists rgb,
    try2 (gray (solid 4 2 16)) (gray (mkPlane 2 1 [[0; 4]]))
         (gray (mkPlane 2 1 [[128; 132]])) = Ok rgb /\
    sample (band rgb 2) 0 0 == -226.816 /\
    sample (band rgb 2) 1 0 == -226.816 /\
    sample (band rgb 2) 2 0 == -223.272 /\
    sample (band rgb 2) 3 0 == -219.728 /\
    sample (band rgb 0) 2 0 == 2.804.
Proof.
  destruct (try2_pixel_formula (solid 4 2 16) (mkPlane 2 1 [[0; 4]])
              (mkPlane 2 1 [[128; 132]]))
    as (rgb & Ht & Hs).
  - repeat split.
  - exists rgb. split; [exact Ht |].
    destruct (Hs 0%nat 0%nat) as (_ & _ & HB0); [cbn; lia | cbn; lia |].
    destruct (Hs 1%nat 0%nat) as (_ & _ & HB1); [cbn; lia | cbn; lia |].
    destruct (Hs 2%nat 0%nat) as (HR2 & _ & HB2); [cbn; lia | cbn; lia |].
    destruct (Hs 3%nat 0%nat) as (_ & _ & HB3); [cbn; lia | cbn; lia |].
    rewrite HB0, HB1, HB2, HB3, HR2. repeat split; reflexivity.
Defined.

(** X12: when both chroma planes hold 128 everywhere, [try2] returns a
    grey picture: at every pixel R = G = B = Y - 16, whatever the luma
    plane is. *)
Theorem try2_neutral_chroma_grey (Y Cb Cr : Plane) :
  chroma_half Y Cb Cr ->
  (forall i j, (i < width Cb)%nat -> (j < height Cb)%nat ->
     sample Cb i j == 128 /\ sample Cr i j == 128) ->
  exists rgb,
    try2 (gray Y) (gray Cb) (gray Cr) = Ok rgb /\
    forall x y k, (x < width Y)%nat -> (y < height Y)%nat -> (k < 3)%nat ->
      sample (band rgb k) x y == sample Y x y - 16.
Proof.
  intros Hc Hn.
  destruct (try2_samples Y Cb Cr Hc) as (R & G & B & Ht & _ & _ & _ & Hs).
  destruct Hc as (HwY & HhY & HwR & HhR).
  exists (mkImage [R; G; B] srgb). split; [exact Ht |].
  intros x y k Hx Hy Hk.
  destruct (Hs x y Hx Hy) as (HR & HG & HB).
  assert (Hb : bilinear Cb 2 x y == 128).
  { apply bilinear_const; try lia. intros i j Hi Hj. apply Hn; assumption. }
  assert (Hr : bilinear Cr 2 x y == 128).
  { apply bilinear_const; try lia. intros i j Hi Hj.
    apply Hn; [rewrite <- HwR | rewrite <- HhR]; assumption. }
  rewrite Hb, Hr in HR, HG, HB.
  destruct k as [| [| [| k]]]; [| | | lia]; cbn [band bands nth].
  - rewrite HR. ring.
  - rewrite HG. ring.
  - rewrite HB. ring.
Qed.

Lemma try2_neutral_chroma_grey_witness :
  exists rgb,
    try2 (gray (mkPlane 2 2 [[16; 235]; [100; 200]]))
         (gray (solid 1 1 128)) (gray (solid 1 1 128)) = Ok rgb /\
    sample (band rgb 0) 1 0 == 219 /\
    sample (band rgb 1) 1 0 == 219 /\
    sample (band rgb 2) 1 0 == 219.
Proof.
  destruct (try2_neutral_chroma_grey (mkPlane 2 2 [[16; 235]; [100; 200]])
              (solid 1 1 128) (solid 1 1 128))
    as (rgb & Ht & Hs).
  - repeat split.
  - intros i j Hi Hj. cbn in Hi, Hj. unfold solid.
    rewrite !sample_tabulate by assumption. split; reflexivity.
  - exists rgb. split; [exact Ht |].
    repeat split; rewrite Hs by (cbn; lia); reflexivity.
Defined.

(** ** Planes of any sizes *)

(** What [try2] returns on any three planes: both chroma planes are
    doubled, then all three are extended to the largest width and
    height. *)
Lemma try2_padded (Y Cb Cr : Plane) :
  let Cb2 := tabulate (width Cb * 2) (height Cb * 2) (bilinear Cb 2) in
  let Cr2 := tabulate (width Cr * 2) (height Cr * 2) (bilinear Cr 2) in
  let w := largest (width Y) (width Cb * 2) (width Cr * 2) in
  let hh := largest (height Y) (height Cb * 2) (height Cr * 2) in
  let pad := fun (P : Plane) (x y : nat) =>
    if ((x <? width P) && (y <? height P))%nat then sample P x y else 0 in
  exists R G B,
    try2 (gray Y) (gray Cb) (gray Cr) = Ok (mkImage [R; G; B] srgb) /\
    (width R = w /\ height R = hh) /\
    (width G = w /\ height G = hh) /\
    (width B = w /\ height B = hh) /\
    forall x y, (x < w)%nat -> (y < hh)%nat ->
      sample R x y
        == 1.0 * (pad Y x y - 16) + 0.0 * (pad Cb2 x y - 128)
           + 1.402 * (pad Cr2 x y - 128) /\
      sample G x y
        == 1.0 * (pad Y x y - 16) + -0.344136 * (pad Cb2 x y - 128)
           + -0.714136 * (pad Cr2 x y - 128) /\
      sample B x y
        == 1.0 * (pad Y x y - 16) + 1.772 * (pad Cb2 x y - 128)
           + 0.0 * (pad Cr2 x y - 128).
Proof.
  intros Cb2 Cr2 w hh pad.
  rewrite try2_upsample_transform.
  rewrite !upsample_enlarge by (vm_compute; reflexivity). cbn [bind].
  change (Z.to_nat subsample) with 2%nat. change subsample with 2%Z.
  fold Cb2 Cr2.
  destruct (transform_padded Y Cb2 Cr2
              1.0 0.0 1.402 1.0 (-0.344136) (-0.714136) 1.0 1.772 0.0
              16 128 128)
    as (J & rgb & R & G & B & _ & Ht & Hb & Htag & HR & HG & HB & Hs).
  destruct rgb as [bs t]. cbn [bands tag] in Hb, Htag. subst bs t.
  exists R, G, B. split; [exact Ht |].
  split; [exact HR |]. split; [exact HG |]. split; [exact HB |].
  intros x y Hx Hy.
  destruct (Hs x y Hx Hy) as (_ & _ & _ & HsR & HsG & HsB).
  repeat split; assumption.
Qed.

(** X13: [try2] accepts planes of any sizes.  The chroma planes are
    doubled, every plane that is then smaller than the largest width and
    height is filled up with zero samples on the right and at the bottom,
    and each sample of the sRGB result is
    R = (Y - 16) + 1.402 (c_r - 128),
    G = (Y - 16) - 0.344136 (c_b - 128) - 0.714136 (c_r - 128),
    B = (Y - 16) + 1.772 (c_b - 128) on the filled-up planes. *)
Theorem try2_any_sizes (Y Cb Cr : Plane) :
  let Cb2 := tabulate (width Cb * 2) (height Cb * 2) (bilinear Cb 2) in
  let Cr2 := tabulate (width Cr * 2) (height Cr * 2) (bilinear Cr 2) in
  let w := largest (width Y) (width Cb * 2) (width Cr * 2) in
  let hh := largest (height Y) (height Cb * 2) (height Cr * 2) in
  let pad := fun (P : Plane) (x y : nat) =>
    if ((x <? width P) && (y <? height P))%nat then sample P x y else 0 in
  exists rgb,
    try2 (gray Y) (gray Cb) (gray Cr) = Ok rgb /\
    tag rgb = srgb /\ length (bands rgb) = 3%nat /\
    (forall k, (k < 3)%nat ->
       width (band rgb k) = w /\ height (band rgb k) = hh) /\
    forall x y, (x < w)%nat -> (y < hh)%nat ->
      sample (band rgb 0) x y
        == (pad Y x y - 16) + 1.402 * (pad Cr2 x y - 128) /\
      sample (band rgb 1) x y
        == (pad Y x y - 16) - 0.344136 * (pad Cb2 x y - 128)
           - 0.714136 * (pad Cr2 x y - 128) /\
      sample (band rgb 2) x y
        == (pad Y x y - 16) + 1.772 * (pad Cb2 x y - 128).
Proof.
  intros Cb2 Cr2 w hh pad.
  destruct (try2_padded Y Cb Cr) as (R & G & B & Ht & HR & HG & HB & Hs).
  exists (mkImage [R; G; B] srgb). split; [exact Ht |].
  split; [reflexivity |]. split; [reflexivity |].
  split.
  - intros k Hk. destruct k as [| [| [| k]]]; [| | | lia];
      cbn [band bands nth]; assumption.
  - intros x y Hx Hy. destruct (Hs x y Hx Hy) as (HsR & HsG & HsB).
    cbn [band bands nth]. rewrite HsR, HsG, HsB.
    unfold pad, Cb2, Cr2. repeat split; ring.
Qed.

(** Luma 3x1 with chroma 1x1: the doubled chroma is 2x2, so the result is
    3x2; in the third column the chroma is filled with 0 and in the
    second row the luma is. *)
Example try2_luma_3x1 :
  exists rgb,
    try2 (gray (mkPlane 3 1 [[16; 16; 16]])) (gray (mkPlane 1 1 [[128]]))
         (gray (mkPlane 1 1 [[128]])) = Ok rgb /\
    image_width rgb = 3%nat /\ image_height rgb = 2%nat /\
    sample (band rgb 2) 1 0 == 0 /\
    sample (band rgb 2) 2 0 == 1.772 * -128 /\
    sample (band rgb 2) 1 1 == -16.
Proof.
  eexists. split; [vm_compute; reflexivity |].
  repeat split; vm_compute; reflexivity.
Qed.

(** ** The benchmark run *)

Lemma black_image_ok (w h : Z) :
  (0 < w)%Z -> (0 < h)%Z ->
  black_image w h
  = Ok (gray (tabulate (Z.to_nat w) (Z.to_nat h) (fun _ _ => 0))).
Proof.
  intros Hw Hh. unfold black_image.
  destruct (w <=? 0)%Z eqn:Ew; [apply Z.leb_le in Ew; lia |].
  destruct (h <=? 0)%Z eqn:Eh; [apply Z.leb_le in Eh; lia |].
  reflexivity.
Qed.

Lemma halved_side (n : Z) :
  (2 <= n)%Z ->
  (0 < Z.shiftr n shift)%Z /\
  (0 < Z.to_nat (Z.shiftr n shift))%nat /\
  (Z.to_nat (Z.shiftr n shift) * 2 <= Z.to_nat n)%nat.
Proof.
  intro Hn. unfold shift.
  rewrite Z.shiftr_div_pow2 by lia. change (2 ^ 1)%Z with 2%Z.
  pose proof (Z.div_mod n 2 ltac:(lia)) as Hdm.
  pose proof (Z.mod_pos_bound n 2 ltac:(lia)) as Hb.
  repeat split; lia.
Qed.

(** X14: for every WIDTH and HEIGHT of at least 2, odd ones included, the
    benchmark body completes.  Both [bench] statements report the same
    sRGB image of three bands of size WIDTH by HEIGHT, and since all three
    input planes are black every pixel of it is
    (-195.456, 119.458816, -242.816): below 0 in red and blue, nothing is
    clamped. *)
Theorem main_completes (w h : Z) :
  (2 <= w)%Z -> (2 <= h)%Z ->
  exists rgb,
    main w h = Ok [ ("linear"%string, VImage rgb);
                    ("plus write_to_binary"%string, VImage rgb) ] /\
    tag rgb = srgb /\ length (bands rgb) = 3%nat /\
    (forall k, (k < 3)%nat ->
       width (band rgb k) = Z.to_nat w /\ height (band rgb k) = Z.to_nat h) /\
    forall x y, (x < Z.to_nat w)%nat -> (y < Z.to_nat h)%nat ->
      sample (band rgb 0) x y == -195.456 /\
      sample (band rgb 1) x y == 119.458816 /\
      sample (band rgb 2) x y == -242.816.
Proof.
  intros Hw Hh.
  destruct (halved_side w Hw) as (Hw1 & Hw2 & Hw3).
  destruct (halved_side h Hh) as (Hh1 & Hh2 & Hh3).
  set (Yp := tabulate (Z.to_nat w) (Z.to_nat h) (fun _ _ => 0)).
  set (Cp := tabulate (Z.to_nat (Z.shiftr w shift))
               (Z.to_nat (Z.shiftr h shift)) (fun _ _ => 0)).
  destruct (try2_padded Yp Cp Cp) as (R & G & B & Ht & HR & HG & HB & Hs).
  cbn [width height tabulate Yp Cp] in HR, HG, HB, Hs.
  assert (Ew : largest (Z.to_nat w) (Z.to_nat (Z.shiftr w shift) * 2)
                 (Z.to_nat (Z.shiftr w shift) * 2) = Z.to_nat w)
    by (unfold largest; lia).
  assert (Eh : largest (Z.to_nat h) (Z.to_nat (Z.shiftr h shift) * 2)
                 (Z.to_nat (Z.shiftr h shift) * 2) = Z.to_nat h)
    by (unfold largest; lia).
  unfold Yp, Cp in HR, HG, HB, Hs. cbn [width height tabulate] in HR, HG, HB, Hs.
  rewrite Ew, Eh in HR, HG, HB, Hs.
  exists (mkImage [R; G; B] srgb).
  split.
  { unfold main. cbn [black copy_memory SpecVips].
    rewrite (black_image_ok w h) by lia. cbn [bind].
    rewrite (black_image_ok _ _ Hw1 Hh1). cbn [bind].
    unfold bench, call, fmap. fold Yp Cp. rewrite Ht. reflexivity. }
  split; [reflexivity |]. split; [reflexivity |].
  split.
  { intros k Hk. destruct k as [| [| [| k]]]; [| | | lia];
      cbn [band bands nth]; assumption. }
  intros x y Hx Hy.
  destruct (Hs x y Hx Hy) as (HsR & HsG & HsB).
  assert (HY : (if ((x <? Z.to_nat w) && (y <? Z.to_nat h))%nat
                then sample (tabulate (Z.to_nat w) (Z.to_nat h)
                               (fun _ _ => 0)) x y
                else 0) == 0).
  { destruct ((x <? Z.to_nat w) && (y <? Z.to_nat h))%nat;
      [rewrite sample_tabulate by assumption |]; reflexivity. }
  assert (HC : (if ((x <? Z.to_nat (Z.shiftr w shift) * 2)
                    && (y <? Z.to_nat (Z.shiftr h shift) * 2))%nat
                then sample (tabulate (Z.to_nat (Z.shiftr w shift) * 2)
                               (Z.to_nat (Z.shiftr h shift) * 2)
                               (bilinear
                                  (tabulate (Z.to_nat (Z.shiftr w shift))
                                     (Z.to_nat (Z.shiftr h shift))
                                     (fun _ _ => 0)) 2)) x y
                else 0) == 0).
  { destruct ((x <? Z.to_nat (Z.shiftr w shift) * 2)
              && (y <? Z.to_nat (Z.shiftr h shift) * 2))%nat eqn:E;
      [| reflexivity].
    apply andb_true_iff in E. destruct E as [Ex Ey].
    apply Nat.ltb_lt in Ex, Ey.
    rewrite sample_tabulate by assumption.
    apply bilinear_const; cbn [width height tabulate]; try assumption.
    intros i j Hi Hj. rewrite sample_tabulate by assumption. reflexivity. }
  rewrite HY, HC in HsR, HsG, HsB.
  cbn [band bands nth]. rewrite HsR, HsG, HsB.
  repeat split; reflexivity.
Qed.

Lemma main_completes_witness :
  exists rgb,
    main 3 5 = Ok [ ("linear"%string, VImage rgb);
                    ("plus write_to_binary"%string, VImage rgb) ] /\
    image_width rgb = 3%nat /\ image_height rgb = 5%nat /\
    sample (band rgb 0) 2 4 == -195.456.
Proof.
  destruct (main_completes 3 5) as (rgb & Hm & _ & _ & Hd & Hs); [lia | lia |].
  exists rgb. split; [exact Hm |].
  destruct (Hd 0%nat) as (Hw0 & Hh0); [lia |].
  split; [exact Hw0 |]. split; [exact Hh0 |].
  apply Hs; cbn; lia.
Defined.
